(** * ElevenLabs speech service: voice resolution and synthesis

    A shallow embedding of [manim_voiceover/services/elevenlabs.py]
    (class [ElevenLabsService] and the credential check
    [create_dotenv_elevenlabs]) and the properties of the constructor,
    of [generate_from_text] and of the check.

    Python values are modelled as follows.
    - [Optional[str]] is [option string]; Python truthiness of such a
      value ([if voice_id:]) is [truthy].
    - [bytes] is [list byte]; the remote audio stream is a generator
      of byte chunks that may raise while it is iterated.
    - Exceptions are values of [pyexn] and stand for instances of
      [Exception]: these are what [except Exception] catches.  Of an
      exception the model keeps its class, its [str()] and its
      [__context__], the exception that was being handled when it was
      raised: Python sets this link on an exception raised inside an
      [except] block.
    - Effects (logging, remote calls, files) are threaded through a
      state-and-exception monad [Py] over a [world]. *)

From Stdlib.Strings Require Import Ascii Byte.
From stdpp Require Import base strings list option gmap.

Open Scope string_scope.
Open Scope list_scope.

(** ** Python values *)

Abbreviation bytes := (list byte).

(** A raised instance of [Exception]: its class name, [str(e)] and
    [e.__context__]. *)
#[warnings="-register-all"]
Inductive pyexn : Type := PyExn {
  exn_class : string;
  exn_str : string;
  exn_context : option pyexn;
}.

(** The exception [e] once it is raised while [handled] is being
    handled: Python stores [handled] in its [__context__]. *)
Definition with_context (e handled : pyexn) : pyexn :=
  {| exn_class := exn_class e;
     exn_str := exn_str e;
     exn_context := Some handled |}.

(** Values found in the [voice_settings] mapping and in [**kwargs]; the
    service passes them on without looking inside. *)
Inductive pyval :=
| PyBool (b : bool)
| PyInt (z : Z)
| PyFloat (literal : string)
| PyStr (s : string).

Abbreviation pydict := (gmap string pyval).

(** [bool(x)] for [x : Optional[str]]: [None] and [""] are falsy. *)
Definition truthy (x : option string) : bool :=
  match x with
  | None => false
  | Some s => negb (String.eqb s "")
  end.

(** ** Remote entities and records of the service *)

(** A remote voice, as listed by [client.voices.get_all()]. *)
Module Voice.
Record t := mk { name : string; voice_id : string }.
End Voice.

(** Keyword arguments of [client.text_to_speech.convert]. *)
Record ConvertArgs := mkConvertArgs {
  arg_text : string;
  arg_voice_id : option string;
  arg_model_id : string;
  arg_output_format : string;
  arg_voice_settings : option pydict;
}.

(** The audio generator returned by [convert]: the chunks it yields, in
    order, and the exception that ends the iteration, if any. *)
Record Generator := mkGenerator {
  gen_chunks : list bytes;
  gen_error : option pyexn;
}.

(** The ["config"] entry of the fingerprint. *)
Record Config := mkConfig {
  cfg_model : string;
  cfg_voice_id : option string;
}.

(** The [input_data] dict: the cache fingerprint. *)
Record Fingerprint := mkFingerprint {
  fp_input_text : string;
  fp_service : string;
  fp_config : Config;
}.

(** The dict returned by [generate_from_text]. *)
Record SynthesisResult := mkResult {
  input_text : string;
  input_data : Fingerprint;
  original_audio : string;
}.

#[global] Instance Config_eq_dec : EqDecision Config.
Proof. solve_decision. Defined.
#[global] Instance Fingerprint_eq_dec : EqDecision Fingerprint.
Proof. solve_decision. Defined.

(** ** The world and the monad of Python computations *)

Inductive level := Warn | Info | Error.

(** What an execution leaves behind, in order: log records and calls to
    the remote service. *)
Inductive event :=
| EvLog (lvl : level) (msg : string)
| EvGetAll
| EvConvert (args : ConvertArgs).

Record world := mkWorld {
  trace : list event;
  files : gmap string bytes;
}.

Inductive pyres (A : Type) :=
| Ok (a : A)
| Raise (e : pyexn).
Arguments Ok {A} a.
Arguments Raise {A} e.

Definition Py (A : Type) : Type := world -> pyres A * world.

Definition ret {A} (a : A) : Py A := fun w => (Ok a, w).

Definition raise {A} (e : pyexn) : Py A := fun w => (Raise e, w).

(** [raise e] inside the block [except Exception as handled:]. *)
Definition raise_handling {A} (handled e : pyexn) : Py A :=
  raise (with_context e handled).

Definition bind {A B} (m : Py A) (k : A -> Py B) : Py B :=
  fun w =>
    match m w with
    | (Ok a, w') => k a w'
    | (Raise e, w') => (Raise e, w')
    end.

(** [try: body  except Exception as e: handler e] *)
Definition try_except {A} (body : Py A) (handler : pyexn -> Py A) : Py A :=
  fun w =>
    match body w with
    | (Ok a, w') => (Ok a, w')
    | (Raise e, w') => handler e w'
    end.

(** A library call whose outcome is already decided. *)
Definition lift {A} (r : pyres A) : Py A := fun w => (r, w).

Declare Scope py_scope.
Delimit Scope py_scope with py.
Notation "x <- m ;; k" := (bind m (fun x => k))
  (at level 100, m at next level, right associativity) : py_scope.
Notation "m ;;; k" := (bind m (fun _ => k))
  (at level 100, right associativity) : py_scope.
Open Scope py_scope.

Definition emit (e : event) : Py unit :=
  fun w => (Ok tt, mkWorld (trace w ++ [e]) (files w)).

Definition logger_warn (msg : string) : Py unit := emit (EvLog Warn msg).
Definition logger_info (msg : string) : Py unit := emit (EvLog Info msg).
Definition logger_error (msg : string) : Py unit := emit (EvLog Error msg).

Definition IndexError : pyexn :=
  PyExn "IndexError" "list index out of range" None.

(** [l[i]] for a list and [i >= 0]. *)
Definition getitem {A} (l : list A) (i : nat) : Py A :=
  match l !! i with
  | Some x => ret x
  | None => raise IndexError
  end.

(** ** The environment of the service

    The vendor client, the collaborators inherited from [SpeechService]
    or imported from [manim_voiceover.helper], and the operating system.
    None of them is defined in this file of the repository, so the
    service is verified for every environment. *)
Record Env := mkEnv {
  (** [self.client.voices.get_all()]: the listed voices, or a failure. *)
  voices_get_all : pyres (list Voice.t);
  (** [self.client.text_to_speech.convert(...)]. *)
  text_to_speech_convert : ConvertArgs -> pyres Generator;
  (** [manim_voiceover.helper.remove_bookmarks]. *)
  remove_bookmarks : string -> string;
  (** [SpeechService.get_cached_result(input_data, cache_dir)]: reads the
      cache index found among the files. *)
  get_cached_result :
    Fingerprint -> string -> gmap string bytes -> option SynthesisResult;
  (** [SpeechService.get_audio_basename(input_data)]. *)
  get_audio_basename : Fingerprint -> string;
  (** [SpeechService.__init__(self, transcription_model=..., **kwargs)]:
      returns the [cache_dir] it stores on [self], or raises. *)
  SpeechService_init : string -> pydict -> Py string;
  (** [str(Path(cache_dir) / audio_path)]. *)
  path_join : string -> string -> string;
  (** Whether [open(p, "wb")] fails, given the files present. *)
  open_wb_error : string -> gmap string bytes -> option pyexn;
  (** Whether [f.write(data)] fails, and after how many bytes. *)
  write_error : string -> bytes -> option (pyexn * nat);
}.

Definition client_voices_get_all (E : Env) : Py (list Voice.t) :=
  emit EvGetAll;;; lift (voices_get_all E).

Definition client_text_to_speech_convert (E : Env) (args : ConvertArgs)
  : Py Generator :=
  emit (EvConvert args);;; lift (text_to_speech_convert E args).

Definition self_get_cached_result (E : Env) (fp : Fingerprint)
    (cache_dir : string) : Py (option SynthesisResult) :=
  fun w => (Ok (get_cached_result E fp cache_dir (files w)), w).

(** [b"".join(chunk for chunk in audio_generator)] *)
Definition bytes_join (g : Generator) : Py bytes :=
  match gen_error g with
  | Some e => raise e
  | None => ret (concat (gen_chunks g))
  end.

(** [open(p, "wb")]: creates or truncates the file. *)
Definition open_wb (E : Env) (p : string) : Py unit :=
  fun w =>
    match open_wb_error E p (files w) with
    | Some e => (Raise e, w)
    | None => (Ok tt, mkWorld (trace w) (<[p := []]> (files w)))
    end.

(** [f.write(data)] on a file just opened with [open_wb]. *)
Definition f_write (E : Env) (p : string) (data : bytes) : Py unit :=
  fun w =>
    match write_error E p data with
    | Some (e, n) => (Raise e, mkWorld (trace w) (<[p := take n data]> (files w)))
    | None => (Ok tt, mkWorld (trace w) (<[p := data]> (files w)))
    end.

(** [str(x)] inside an f-string, for [x : Optional[str]]. *)
Definition format_opt (x : option string) : string :=
  match x with
  | Some s => s
  | None => "None"
  end.

(** ** The service *)

Module ElevenLabsService.

(** The attributes of an instance; [self.client] is the environment. *)
Record t := mk {
  self_model : string;
  self_voice_settings : option pydict;
  self_output_format : string;
  self_voice_id : option string;
  self_cache_dir : string;
}.

(** The block "Determine voice to use" of [__init__]: the value it
    leaves in [self.voice_id]. *)
Definition determine_voice (E : Env) (voice_name voice_id : option string)
  : Py (option string) :=
  if negb (truthy voice_name) && negb (truthy voice_id) then
    logger_warn
      "None of `voice_name` or `voice_id` provided. Will be using default voice.";;;
    try_except
      (voices <- client_voices_get_all E;;
       v <- getitem voices 0;;
       let self_voice_id := Some (Voice.voice_id v) in
       v' <- getitem voices 0;;
       logger_info ("Using default voice: " +:+ Voice.name v');;;
       ret self_voice_id)
      (fun e =>
         logger_error ("Failed to get voices: " +:+ exn_str e);;;
         ret None)
  else if truthy voice_id then
    ret voice_id
  else
    try_except
      (voices <- client_voices_get_all E;;
       let selected_voice :=
         filter (fun v => Some (Voice.name v) = voice_name) voices in
       match selected_voice with
       | _ :: _ =>
           v <- getitem selected_voice 0;;
           ret (Some (Voice.voice_id v))
       | [] =>
           logger_warn
             ("Voice name '" +:+ format_opt voice_name
                +:+ "' not found. Using default voice.");;;
           v <- getitem voices 0;;
           ret (Some (Voice.voice_id v))
       end)
      (fun e =>
         logger_error ("Failed to get voices: " +:+ exn_str e);;;
         if truthy voice_id then ret voice_id else ret None).

(** The constructor, from the block "Determine voice to use" to its end
    (lines 96-130).  The construction of the vendor client at line 85,
    [ElevenLabs()], is taken to have returned: the client it returns is
    the environment [E]. *)
Definition __init__ (E : Env) (voice_name voice_id : option string)
    (model : string) (voice_settings : option pydict)
    (output_format transcription_model : string) (kwargs : pydict)
  : Py t :=
  self_voice_id <- determine_voice E voice_name voice_id;;
  self_cache_dir <- SpeechService_init E transcription_model kwargs;;
  ret (mk model voice_settings output_format self_voice_id self_cache_dir).

(** The [input_data] dict built at the start of [generate_from_text]. *)
Definition build_input_data (E : Env) (self : t) (text : string)
  : Fingerprint :=
  let input_text := remove_bookmarks E text in
  {| fp_input_text := input_text;
     fp_service := "elevenlabs";
     fp_config := {| cfg_model := self_model self;
                     cfg_voice_id := self_voice_id self |} |}.

(** The exception built by the handler of [generate_from_text]:
    [Exception("Failed to generate speech with ElevenLabs.")]. *)
Definition synthesis_failure : pyexn :=
  PyExn "Exception" "Failed to generate speech with ElevenLabs." None.

(** The keyword arguments [**kwargs] are accepted and never read; they
    are left out. *)
Definition generate_from_text (E : Env) (self : t) (text : string)
    (cache_dir path : option string) : Py SynthesisResult :=
  let cache_dir :=
    match cache_dir with
    | None => self_cache_dir self
    | Some d => d
    end in
  let input_text := remove_bookmarks E text in
  let input_data := build_input_data E self text in
  cached_result <- self_get_cached_result E input_data cache_dir;;
  match cached_result with
  | Some r => ret r
  | None =>
      let audio_path :=
        match path with
        | None => get_audio_basename E input_data +:+ ".mp3"
        | Some p => p
        end in
      try_except
        (audio_generator <-
           client_text_to_speech_convert E
             {| arg_text := input_text;
                arg_voice_id := self_voice_id self;
                arg_model_id := self_model self;
                arg_output_format := self_output_format self;
                arg_voice_settings := self_voice_settings self |};;
         audio_bytes <- bytes_join audio_generator;;
         let p := path_join E cache_dir audio_path in
         open_wb E p;;;
         f_write E p audio_bytes)
        (fun e =>
           logger_error ("Error using ElevenLabs API: " +:+ exn_str e);;;
           raise_handling e synthesis_failure);;;
      ret {| input_text := text;
             input_data := input_data;
             original_audio := audio_path |}
  end.

End ElevenLabsService.

(** ** Sample environments

    Concrete voices, collaborators and remote behaviours on which the
    model is run. *)

Definition sample_voices : list Voice.t :=
  [Voice.mk "Rachel" "v-rachel"; Voice.mk "Adam" "v-adam";
   Voice.mk "" "v-blank"].

(** A cache index held as a list of records, searched for the first
    entry with the given [input_data]. *)
Definition lookup_cache (entries : list SynthesisResult) (fp : Fingerprint)
  : option SynthesisResult :=
  List.find (fun r => bool_decide (input_data r = fp)) entries.

(** A stand-in for [remove_bookmarks]: drops every [<...>] tag. *)
Fixpoint strip_tags (inside : bool) (s : string) : string :=
  match s with
  | EmptyString => EmptyString
  | String c s' =>
      if inside then strip_tags (negb (Ascii.eqb c ">"%char)) s'
      else if Ascii.eqb c "<"%char then strip_tags true s'
      else String c (strip_tags false s')
  end.

Definition sample_basename (fp : Fingerprint) : string :=
  "speech-" +:+ fp_input_text fp.

Definition sample_generator : Generator :=
  {| gen_chunks := [[x49; x44]; []; [x33]]; gen_error := None |}.

Definition sample_env (voices : pyres (list Voice.t))
    (audio : pyres Generator) (cache : list SynthesisResult) : Env :=
  {| voices_get_all := voices;
     text_to_speech_convert := fun _ => audio;
     remove_bookmarks := strip_tags false;
     get_cached_result := fun fp _ _ => lookup_cache cache fp;
     get_audio_basename := sample_basename;
     SpeechService_init := fun _ _ => ret "media/voiceovers";
     path_join := fun d p => d +:+ "/" +:+ p;
     open_wb_error := fun _ _ => None;
     write_error := fun _ _ => None |}.

Definition timeout_error : pyexn :=
  PyExn "ApiError" "status_code: 504" None.

Definition quota_error : pyexn :=
  PyExn "ApiError" "status_code: 429" None.

Definition w0 : world := {| trace := []; files := ∅ |}.

(** A world in which the destination file already exists. *)
Definition w1 : world :=
  {| trace := [];
     files := {[ "media/voiceovers/speech-Hello  world.mp3" := [x00; x01] ]} |}.

Definition sample_text : string := "Hello <bookmark mark='a'/> world".

Definition sample_service : ElevenLabsService.t :=
  ElevenLabsService.mk "eleven_multilingual_v2" None "mp3_44100_128"
    (Some "V1") "media/voiceovers".

(** The same service with other voice settings and output format. *)
Definition sample_service' : ElevenLabsService.t :=
  ElevenLabsService.mk "eleven_multilingual_v2"
    (Some {[ "stability" := PyFloat "0.5" ]}) "pcm_16000"
    (Some "V1") "media/voiceovers".

Definition sample_cached : SynthesisResult :=
  {| input_text := sample_text;
     input_data :=
       {| fp_input_text := "Hello  world";
          fp_service := "elevenlabs";
          fp_config := {| cfg_model := "eleven_multilingual_v2";
                          cfg_voice_id := Some "V1" |} |};
     original_audio := "earlier.mp3" |}.

(** Voices listed, synthesis succeeds, nothing cached. *)
Definition env_ok : Env :=
  sample_env (Ok sample_voices) (Ok sample_generator) [].

(** The remote lists no voice. *)
Definition env_no_voices : Env :=
  sample_env (Ok []) (Ok sample_generator) [].

(** Both remote calls fail. *)
Definition env_down : Env :=
  sample_env (Raise timeout_error) (Raise quota_error) [].

(** The sample request is in the cache. *)
Definition env_cached : Env :=
  sample_env (Ok sample_voices) (Ok sample_generator) [sample_cached].

(** ** Specification vocabulary *)

(** The run of the base constructor that ends [__init__], with the given
    value stored in [self.voice_id]. *)
Definition base_init_with (E : Env) (model : string)
    (voice_settings : option pydict)
    (output_format transcription_model : string) (kwargs : pydict)
    (vid : option string) : Py ElevenLabsService.t :=
  cd <- SpeechService_init E transcription_model kwargs;;
  ret (ElevenLabsService.mk model voice_settings output_format vid cd).

(** A call of the constructor resolves the voice to [vid] after the
    events [evs]: it leaves these events and no others, touches no file,
    and hands over to the base constructor with [self.voice_id = vid]. *)
Definition resolves_to (E : Env) (voice_name voice_id : option string)
    (model : string) (voice_settings : option pydict)
    (output_format transcription_model : string) (kwargs : pydict)
    (w : world) (vid : option string) (evs : list event) : Prop :=
  ElevenLabsService.__init__ E voice_name voice_id model voice_settings
    output_format transcription_model kwargs w
  = base_init_with E model voice_settings output_format transcription_model
      kwargs vid {| trace := trace w ++ evs; files := files w |}.

(** [v], at index [i], is the first voice of [vs] named [n]. *)
Definition first_named (n : string) (vs : list Voice.t) (i : nat)
    (v : Voice.t) : Prop :=
  vs !! i = Some v /\ Voice.name v = n /\
  forall j v', vs !! j = Some v' -> j < i -> Voice.name v' <> n.

Definition warn_no_voice_given : event :=
  EvLog Warn
    "None of `voice_name` or `voice_id` provided. Will be using default voice.".

Definition warn_name_not_found (n : string) : event :=
  EvLog Warn ("Voice name '" +:+ n +:+ "' not found. Using default voice.").

Definition error_get_voices (e : pyexn) : event :=
  EvLog Error ("Failed to get voices: " +:+ exn_str e).

(** The cache directory a call works in: the argument, or
    [self.cache_dir] when the argument is [None]. *)
Definition cache_dir_of (self : ElevenLabsService.t)
    (cache_dir : option string) : string :=
  default (ElevenLabsService.self_cache_dir self) cache_dir.

(** The destination file name of a call that misses the cache. *)
Definition audio_path_of (E : Env) (self : ElevenLabsService.t)
    (text : string) (path : option string) : string :=
  match path with
  | Some p => p
  | None =>
      get_audio_basename E (ElevenLabsService.build_input_data E self text)
        +:+ ".mp3"
  end.

(** The request sent to the synthesis endpoint. *)
Definition request_of (E : Env) (self : ElevenLabsService.t)
    (text : string) : ConvertArgs :=
  {| arg_text := remove_bookmarks E text;
     arg_voice_id := ElevenLabsService.self_voice_id self;
     arg_model_id := ElevenLabsService.self_model self;
     arg_output_format := ElevenLabsService.self_output_format self;
     arg_voice_settings := ElevenLabsService.self_voice_settings self |}.

Definition error_api (e : pyexn) : event :=
  EvLog Error ("Error using ElevenLabs API: " +:+ exn_str e).

(** The ways the remote call and the file write can fail with [e], for
    a request [args] whose audio goes to the file [p]: the call itself
    raises, the audio stream raises while it is read, the file cannot be
    opened, or the write fails. *)
Inductive synthesis_fails (E : Env) (args : ConvertArgs) (p : string)
    (fs : gmap string bytes) (e : pyexn) : Prop :=
| convert_raises :
    text_to_speech_convert E args = Raise e ->
    synthesis_fails E args p fs e
| stream_raises g :
    text_to_speech_convert E args = Ok g ->
    gen_error g = Some e ->
    synthesis_fails E args p fs e
| open_raises g :
    text_to_speech_convert E args = Ok g ->
    gen_error g = None ->
    open_wb_error E p fs = Some e ->
    synthesis_fails E args p fs e
| write_raises g n :
    text_to_speech_convert E args = Ok g ->
    gen_error g = None ->
    open_wb_error E p fs = None ->
    write_error E p (concat (gen_chunks g)) = Some (e, n) ->
    synthesis_fails E args p fs e.

(** ** The credential check run when the module is loaded *)

(** How a module-level call ends: it returns, it raises an instance of
    [Exception], or it leaves the process through [sys.exit()]. *)
Inductive outcome :=
| Returned
| Raised (e : pyexn)
| Exited.

(** The [KeyError] of [os.environ["ELEVEN_API_KEY"]] for a missing key.
    [os.environ] raises it with [from None]; what it was raised from is
    internal to the [os] module and left out. *)
Definition key_error : pyexn :=
  PyExn "KeyError" "'ELEVEN_API_KEY'" None.

(** The exception raised for a missing key, inside the handler of the
    [KeyError]. *)
Definition missing_key_error : pyexn :=
  with_context
    (PyExn "Exception"
       ("The environment variables ELEVEN_API_KEY are not set. "
        +:+ "Please set them or create a .env file with the variables.")
       None)
    key_error.

(** [create_dotenv_elevenlabs()], over [os.environ] and the helper
    [manim_voiceover.helper.create_dotenv_file], which is not defined in
    this file of the repository: it may prompt, write files and fail, and
    tells whether a [.env] file was created.  An exception of the helper
    is taken as Python delivers it, its context included. *)
Definition create_dotenv_elevenlabs (environ : gmap string string)
    (create_dotenv_file : list string -> Py bool) : world -> outcome * world :=
  fun w =>
    let (_, w1) :=
      logger_info
        ("Check out https://voiceover.manim.community/en/stable/services.html#elevenlabs"
         +:+ " to learn how to create an account and get your subscription key.")
        w in
    match environ !! "ELEVEN_API_KEY" with
    | Some _ => (Returned, w1)
    | None =>
        match create_dotenv_file ["ELEVEN_API_KEY"] w1 with
        | (Raise e, w2) => (Raised e, w2)
        | (Ok false, w2) => (Raised missing_key_error, w2)
        | (Ok true, w2) =>
            let (_, w3) :=
              logger_info
                "The .env file has been created. Please run Manim again." w2 in
            (Exited, w3)
        end
    end.

(** ** Counting remote calls in a trace *)

Definition is_fetch (ev : event) : bool :=
  match ev with
  | EvGetAll => true
  | _ => false
  end.

Definition is_request (ev : event) : bool :=
  match ev with
  | EvConvert _ => true
  | _ => false
  end.

Definition count_events (f : event -> bool) (evs : list event) : nat :=
  length (List.filter f evs).

(** Sample helpers for the credential check: the user declines, or a
    [.env] file is written. *)
Definition dotenv_declined (keys : list string) : Py bool := ret false.

Definition dotenv_created (keys : list string) : Py bool :=
  fun w => (Ok true,
            {| trace := trace w;
               files := <[".env" := [x4b]]> (files w) |}).

(** A remote whose audio stream is empty. *)
Definition env_silent : Env :=
  sample_env (Ok sample_voices)
    (Ok {| gen_chunks := [[]; []]; gen_error := None |}) [].

(** A remote whose audio stream breaks after the first chunk. *)
Definition env_broken_stream : Env :=
  sample_env (Ok sample_voices)
    (Ok {| gen_chunks := [[x49; x44]]; gen_error := Some timeout_error |}) [].

Definition disk_full_error : pyexn :=
  PyExn "OSError" "[Errno 28] No space left on device" None.

(** The remote answers, but the disk is full: the write of the audio
    fails before any byte is stored. *)
Definition env_disk_full : Env :=
  {| voices_get_all := Ok sample_voices;
     text_to_speech_convert := fun _ => Ok sample_generator;
     remove_bookmarks := strip_tags false;
     get_cached_result := fun fp _ _ => lookup_cache [] fp;
     get_audio_basename := sample_basename;
     SpeechService_init := fun _ _ => ret "media/voiceovers";
     path_join := fun d p => d +:+ "/" +:+ p;
     open_wb_error := fun _ _ => None;
     write_error := fun _ _ => Some (disk_full_error, 0) |}.

(** A remote whose audio depends on the requested output format. *)
Definition env_by_format : Env :=
  {| voices_get_all := Ok sample_voices;
     text_to_speech_convert := fun args =>
       Ok {| gen_chunks :=
               if String.eqb (arg_output_format args) "pcm_16000"
               then [[x00; x01]; [x02]]
               else [[x49; x44]; [x33]];
             gen_error := None |};
     remove_bookmarks := strip_tags false;
     get_cached_result := fun fp _ _ => lookup_cache [] fp;
     get_audio_basename := sample_basename;
     SpeechService_init := fun _ _ => ret "media/voiceovers";
     path_join := fun d p => d +:+ "/" +:+ p;
     open_wb_error := fun _ _ => None;
     write_error := fun _ _ => None |}.

(** * Properties *)

(** ** Generalities on lists and on the monad *)

Lemma truthy_Some (s : string) : s <> "" -> truthy (Some s) = true.
Proof.
  intros Hs. simpl. destruct (String.eqb_spec s ""); [contradiction | reflexivity].
Qed.

Lemma truthy_true_Some (x : option string) :
  truthy x = true -> exists s, x = Some s /\ s <> "".
Proof.
  destruct x as [s|]; [|discriminate]. simpl.
  destruct (String.eqb_spec s ""); [discriminate|]. eauto.
Qed.

Section Filter.
Context {A : Type} (P : A -> Prop) `{!forall x, Decision (P x)}.

Lemma filter_first_match (l : list A) (i : nat) (x : A) :
  l !! i = Some x -> P x ->
  (forall j y, l !! j = Some y -> j < i -> ~ P y) ->
  exists rest, filter P l = x :: rest.
Proof.
  revert i. induction l as [|a l IH]; intros i Hi Hx Hfirst; [done|].
  destruct i as [|i]; simpl in Hi.
  - injection Hi as ->. exists (filter P l). by apply filter_cons_True.
  - rewrite filter_cons_False.
    + apply (IH i); [done | done |].
      intros j y Hj Hlt. apply (Hfirst (S j) y); [done | lia].
    + apply (Hfirst 0 a); [done | lia].
Qed.

Lemma filter_no_match (l : list A) :
  (forall x, x ∈ l -> ~ P x) -> filter P l = [].
Proof.
  induction l as [|a l IH]; intros Hnone; [done|].
  rewrite filter_cons_False.
  - apply IH. intros x Hx. apply Hnone. by right.
  - apply Hnone. by left.
Qed.
End Filter.

Lemma world_eta (w : world) : {| trace := trace w; files := files w |} = w.
Proof. by destruct w. Qed.

Lemma world_no_events (w : world) :
  {| trace := trace w ++ []; files := files w |} = w.
Proof. rewrite app_nil_r. apply world_eta. Qed.

Ltac py_unfold :=
  unfold bind, try_except, ret, raise_handling, raise, lift, logger_warn,
    logger_info,
    logger_error, emit, getitem; simpl.

Ltac trace_norm := simpl; rewrite <- ?app_assoc; simpl.

(** ** Voice resolution at construction *)

Section Construction.
Import ElevenLabsService.
Context (E : Env) (model : string) (voice_settings : option pydict)
  (output_format transcription_model : string) (kwargs : pydict).

Local Abbreviation resolves vn vid w r evs :=
  (resolves_to E vn vid model voice_settings output_format
     transcription_model kwargs w r evs).

(** The constructor is the voice block followed by the base
    constructor. *)
Lemma resolves_to_intro vn vid w r evs :
  determine_voice E vn vid w
  = (Ok r, {| trace := trace w ++ evs; files := files w |}) ->
  resolves vn vid w r evs.
Proof.
  intros Hdv. unfold resolves_to, __init__, base_init_with.
  unfold bind at 1. by rewrite Hdv.
Qed.

Lemma determine_voice_id vn vid w :
  truthy vid = true -> determine_voice E vn vid w = (Ok vid, w).
Proof.
  intros Hvid. unfold determine_voice. rewrite Hvid.
  by rewrite andb_false_r.
Qed.

Lemma determine_voice_named n vid w vs :
  truthy vid = false -> n <> "" -> voices_get_all E = Ok vs ->
  determine_voice E (Some n) vid w =
  match filter (fun v => Some (Voice.name v) = Some n) vs, vs with
  | v :: _, _ =>
      (Ok (Some (Voice.voice_id v)),
       {| trace := trace w ++ [EvGetAll]; files := files w |})
  | [], v :: _ =>
      (Ok (Some (Voice.voice_id v)),
       {| trace := trace w ++ [EvGetAll; warn_name_not_found n];
          files := files w |})
  | [], [] =>
      (Ok None,
       {| trace := trace w ++ [EvGetAll; warn_name_not_found n;
                               error_get_voices IndexError];
          files := files w |})
  end.
Proof.
  intros Hvid Hn Hvs. unfold determine_voice, client_voices_get_all.
  rewrite (truthy_Some n Hn), Hvid. simpl. py_unfold. rewrite Hvs.
  destruct (filter _ vs) as [|v sel]; simpl.
  - destruct vs as [|v0 vs']; simpl; trace_norm; reflexivity.
  - reflexivity.
Qed.

Lemma determine_voice_default vn vid w vs :
  truthy vn = false -> truthy vid = false -> voices_get_all E = Ok vs ->
  determine_voice E vn vid w =
  match vs with
  | v :: _ =>
      (Ok (Some (Voice.voice_id v)),
       {| trace := trace w ++ [warn_no_voice_given; EvGetAll;
                               EvLog Info ("Using default voice: "
                                           +:+ Voice.name v)];
          files := files w |})
  | [] =>
      (Ok None,
       {| trace := trace w ++ [warn_no_voice_given; EvGetAll;
                               error_get_voices IndexError];
          files := files w |})
  end.
Proof.
  intros Hvn Hvid Hvs. unfold determine_voice, client_voices_get_all.
  rewrite Hvn, Hvid. simpl. py_unfold. rewrite Hvs.
  destruct vs as [|v0 vs']; simpl; trace_norm; reflexivity.
Qed.

Lemma determine_voice_fetch_error vn vid w e :
  truthy vid = false -> voices_get_all E = Raise e ->
  determine_voice E vn vid w =
  (Ok None,
   {| trace := trace w ++
               (if truthy vn then [EvGetAll; error_get_voices e]
                else [warn_no_voice_given; EvGetAll; error_get_voices e]);
      files := files w |}).
Proof.
  intros Hvid Hfetch. unfold determine_voice, client_voices_get_all.
  rewrite Hvid. destruct (truthy vn); simpl; py_unfold; rewrite Hfetch;
    rewrite ?Hvid; trace_norm; reflexivity.
Qed.

(** When the base constructor returns, so does [__init__], with the
    resolved voice in [self.voice_id]. *)
Lemma resolves_to_completes vn vid w r evs cd w' :
  resolves vn vid w r evs ->
  SpeechService_init E transcription_model kwargs
    {| trace := trace w ++ evs; files := files w |} = (Ok cd, w') ->
  __init__ E vn vid model voice_settings output_format
    transcription_model kwargs w
  = (Ok (mk model voice_settings output_format r cd), w').
Proof.
  unfold resolves_to, base_init_with. intros -> Hbase.
  unfold bind. by rewrite Hbase.
Qed.

(** C1 (amended).  When [voice_id] is absent or empty and a non-empty
    [voice_name] is given, the voice list is fetched and scanned for the
    first voice whose name equals [voice_name] exactly (string equality,
    hence case-sensitive).  If there is one, its [voice_id] is the
    resolved id.  If there is none and the fetched list is not empty,
    the resolved id is the [voice_id] of the first entry and the warning
    "Voice name '...' not found. Using default voice." is logged. *)
Theorem voice_name_resolution (n : string) vid w vs :
  truthy vid = false -> n <> "" -> voices_get_all E = Ok vs ->
  (forall i v, first_named n vs i v ->
     resolves (Some n) vid w (Some (Voice.voice_id v)) [EvGetAll]) /\
  (forall v0 vs', vs = v0 :: vs' ->
     (forall v, v ∈ vs -> Voice.name v <> n) ->
     resolves (Some n) vid w (Some (Voice.voice_id v0))
       [EvGetAll; warn_name_not_found n]).
Proof.
  intros Hvid Hn Hvs. split.
  - intros i v (Hi & Hname & Hfirst). apply resolves_to_intro.
    rewrite (determine_voice_named n vid w vs Hvid Hn Hvs).
    destruct (filter_first_match (fun v => Some (Voice.name v) = Some n)
                vs i v Hi) as [rest ->].
    + by rewrite Hname.
    + intros j y Hj Hlt [=Hy]. by apply (Hfirst j y).
    + reflexivity.
  - intros v0 vs' -> Hnone. apply resolves_to_intro.
    rewrite (determine_voice_named n vid w _ Hvid Hn Hvs).
    rewrite filter_no_match; [reflexivity|].
    intros v Hv [=Hname]. by apply (Hnone v).
Qed.

(** C2 (amended).  For every constructor call with a non-empty
    [voice_id], whatever [voice_name] is, the resolved voice id is the
    supplied [voice_id] and the constructor reaches the base constructor
    without any event: no voice list is fetched and nothing is logged. *)
Theorem voice_id_used_verbatim vn (s : string) w :
  s <> "" ->
  resolves vn (Some s) w (Some s) [] /\
  __init__ E vn (Some s) model voice_settings output_format
    transcription_model kwargs w
  = base_init_with E model voice_settings output_format
      transcription_model kwargs (Some s) w.
Proof.
  intros Hs.
  assert (Hres : resolves vn (Some s) w (Some s) []).
  { apply resolves_to_intro. rewrite world_no_events.
    apply determine_voice_id. by apply truthy_Some. }
  split; [exact Hres|].
  unfold resolves_to in Hres. by rewrite world_no_events in Hres.
Qed.

(** C3 (amended).  If the voice list fetched during construction is
    empty, the out-of-range access [voices[0]] of the "use first entry"
    paths raises inside the [try] block and is caught there: the error
    "Failed to get voices: list index out of range" is logged, the
    resolved voice id is [None], and construction goes on to the base
    constructor; it returns whenever the base constructor does. *)
Theorem empty_voice_list_is_caught vn vid w :
  truthy vid = false -> voices_get_all E = Ok [] ->
  let evs :=
    if truthy vn
    then [EvGetAll; warn_name_not_found (format_opt vn);
          error_get_voices IndexError]
    else [warn_no_voice_given; EvGetAll; error_get_voices IndexError] in
  resolves vn vid w None evs /\
  forall cd w',
    SpeechService_init E transcription_model kwargs
      {| trace := trace w ++ evs; files := files w |} = (Ok cd, w') ->
    __init__ E vn vid model voice_settings output_format
      transcription_model kwargs w
    = (Ok (mk model voice_settings output_format None cd), w').
Proof.
  intros Hvid Hvs evs.
  assert (Hres : resolves vn vid w None evs).
  { apply resolves_to_intro. subst evs.
    destruct (truthy vn) eqn:Hvn.
    - destruct (truthy_true_Some vn Hvn) as (n & -> & Hn).
      by rewrite (determine_voice_named n vid w [] Hvid Hn Hvs).
    - by rewrite (determine_voice_default vn vid w [] Hvn Hvid Hvs). }
  split; [exact Hres|].
  intros cd w' Hbase. by apply (resolves_to_completes vn vid w None evs).
Qed.

(** C4.  In either branch that fetches the voice list (those taken when
    [voice_id] is absent or empty), every error raised by the fetch is
    caught and logged as "Failed to get voices: <error>", the resolved
    voice id is [None], and construction goes on to the base
    constructor; it returns whenever the base constructor does. *)
Theorem fetch_error_is_caught vn vid w (e : pyexn) :
  truthy vid = false -> voices_get_all E = Raise e ->
  let evs :=
    if truthy vn then [EvGetAll; error_get_voices e]
    else [warn_no_voice_given; EvGetAll; error_get_voices e] in
  resolves vn vid w None evs /\
  forall cd w',
    SpeechService_init E transcription_model kwargs
      {| trace := trace w ++ evs; files := files w |} = (Ok cd, w') ->
    __init__ E vn vid model voice_settings output_format
      transcription_model kwargs w
    = (Ok (mk model voice_settings output_format None cd), w').
Proof.
  intros Hvid Hfetch evs.
  assert (Hres : resolves vn vid w None evs).
  { apply resolves_to_intro. subst evs.
    by rewrite (determine_voice_fetch_error vn vid w e Hvid Hfetch). }
  split; [exact Hres|].
  intros cd w' Hbase. by apply (resolves_to_completes vn vid w None evs).
Qed.

End Construction.

(** ** Synthesis *)

Section Synthesis.
Import ElevenLabsService.
Context (E : Env) (self : t) (text : string).

Lemma generate_hit cache_dir path w r :
  get_cached_result E (build_input_data E self text)
    (cache_dir_of self cache_dir) (files w) = Some r ->
  generate_from_text E self text cache_dir path w = (Ok r, w).
Proof.
  intros Hhit. unfold generate_from_text, self_get_cached_result.
  unfold bind at 1. unfold cache_dir_of in Hhit.
  destruct cache_dir; simpl in Hhit; by rewrite Hhit.
Qed.

Lemma generate_miss_success cache_dir path w g :
  let p := path_join E (cache_dir_of self cache_dir)
             (audio_path_of E self text path) in
  get_cached_result E (build_input_data E self text)
    (cache_dir_of self cache_dir) (files w) = None ->
  text_to_speech_convert E (request_of E self text) = Ok g ->
  gen_error g = None ->
  open_wb_error E p (files w) = None ->
  write_error E p (concat (gen_chunks g)) = None ->
  generate_from_text E self text cache_dir path w
  = (Ok {| input_text := text;
           input_data := build_input_data E self text;
           original_audio := audio_path_of E self text path |},
     {| trace := trace w ++ [EvConvert (request_of E self text)];
        files := <[p := concat (gen_chunks g)]> (files w) |}).
Proof.
  intros p Hmiss Hconv Hgen Hopen Hwrite. subst p.
  unfold generate_from_text, self_get_cached_result.
  unfold bind at 1. unfold cache_dir_of, audio_path_of, request_of in *.
  destruct cache_dir, path; simpl in *; rewrite Hmiss;
    unfold client_text_to_speech_convert, bytes_join, open_wb, f_write;
    py_unfold; rewrite Hconv, Hgen; simpl; rewrite Hopen; simpl;
    rewrite Hwrite; simpl; by rewrite insert_insert_eq.
Qed.

Lemma generate_miss_failure cache_dir path w e :
  get_cached_result E (build_input_data E self text)
    (cache_dir_of self cache_dir) (files w) = None ->
  synthesis_fails E (request_of E self text)
    (path_join E (cache_dir_of self cache_dir)
       (audio_path_of E self text path)) (files w) e ->
  exists fs,
    generate_from_text E self text cache_dir path w
    = (Raise (with_context synthesis_failure e),
       {| trace := trace w ++ [EvConvert (request_of E self text);
                               error_api e];
          files := fs |}).
Proof.
  intros Hmiss Hfail.
  unfold generate_from_text, self_get_cached_result.
  unfold bind at 1. unfold cache_dir_of, audio_path_of, request_of in *.
  destruct cache_dir, path; simpl in *; rewrite Hmiss;
    unfold client_text_to_speech_convert, bytes_join, open_wb, f_write;
    py_unfold;
    destruct Hfail as [Hc | g Hc Hg | g Hc Hg Ho | g n Hc Hg Ho Hw];
    rewrite Hc; simpl; rewrite ?Hg; simpl; rewrite ?Ho; simpl;
    rewrite ?Hw; simpl; trace_norm; eauto.
Qed.

(** The four cases of [synthesis_fails] leave nothing out: either every
    step of the synthesis succeeds or one of them fails. *)
Lemma synthesis_succeeds_or_fails (args : ConvertArgs) (p : string)
    (fs : gmap string bytes) :
  (exists g,
     text_to_speech_convert E args = Ok g /\ gen_error g = None /\
     open_wb_error E p fs = None /\
     write_error E p (concat (gen_chunks g)) = None)
  \/ exists e, synthesis_fails E args p fs e.
Proof.
  destruct (text_to_speech_convert E args) as [g|e] eqn:Hc;
    [|right; exists e; by apply convert_raises].
  destruct (gen_error g) as [e|] eqn:Hg;
    [right; exists e; by eapply stream_raises|].
  destruct (open_wb_error E p fs) as [e|] eqn:Ho;
    [right; exists e; by eapply open_raises|].
  destruct (write_error E p (concat (gen_chunks g))) as [[e n]|] eqn:Hw;
    [right; exists e; by eapply write_raises|].
  left. by exists g.
Qed.

(** No other exception leaves [generate_from_text]. *)
Lemma generate_raises_only_synthesis_failure cache_dir path w e' w' :
  generate_from_text E self text cache_dir path w = (Raise e', w') ->
  exists e, e' = with_context synthesis_failure e.
Proof.
  intros Hraise.
  destruct (get_cached_result E (build_input_data E self text)
              (cache_dir_of self cache_dir) (files w)) as [r|] eqn:Hcache.
  - by rewrite (generate_hit cache_dir path w r Hcache) in Hraise.
  - destruct (synthesis_succeeds_or_fails (request_of E self text)
                (path_join E (cache_dir_of self cache_dir)
                   (audio_path_of E self text path)) (files w))
      as [(g & Hc & Hg & Ho & Hw) | [e Hfail]].
    + by rewrite (generate_miss_success cache_dir path w g Hcache Hc Hg Ho Hw)
        in Hraise.
    + destruct (generate_miss_failure cache_dir path w e Hcache Hfail)
        as [fs Hgen].
      rewrite Hgen in Hraise. exists e. by injection Hraise as <- _.
Qed.

(** C5.  Two services that agree on model and voice id build the same
    fingerprint for every text, whatever their voice settings and output
    formats: the record with the bookmark-stripped text, the service
    name "elevenlabs" and the configuration made of model and voice id.
    Hence a request that is in the cache for one of them is a cache hit
    for the other. *)
Theorem fingerprint_ignores_settings_and_format (self' : t) :
  self_model self = self_model self' ->
  self_voice_id self = self_voice_id self' ->
  build_input_data E self text = build_input_data E self' text /\
  build_input_data E self text
  = {| fp_input_text := remove_bookmarks E text;
       fp_service := "elevenlabs";
       fp_config := {| cfg_model := self_model self;
                       cfg_voice_id := self_voice_id self |} |} /\
  forall cache_dir path w r,
    cache_dir_of self cache_dir = cache_dir_of self' cache_dir ->
    get_cached_result E (build_input_data E self text)
      (cache_dir_of self cache_dir) (files w) = Some r ->
    generate_from_text E self' text cache_dir path w = (Ok r, w).
Proof.
  intros Hmodel Hvid.
  assert (Hfp : build_input_data E self text
                = build_input_data E self' text).
  { unfold build_input_data. by rewrite Hmodel, Hvid. }
  split; [exact Hfp|]. split; [reflexivity|].
  intros cache_dir path w r Hdir Hhit.
  rewrite Hfp, Hdir in Hhit. clear Hfp Hdir Hmodel Hvid.
  unfold generate_from_text, self_get_cached_result.
  unfold bind at 1. unfold cache_dir_of in Hhit.
  destruct cache_dir; simpl in Hhit; by rewrite Hhit.
Qed.

(** C6.  When the fingerprint of a call is found in the cache, the
    cached record is returned and the world is left as it was: no event
    is added, so no remote synthesis call is issued, and no file is
    written. *)
Theorem cache_hit_returns_cached cache_dir path w r :
  get_cached_result E (build_input_data E self text)
    (cache_dir_of self cache_dir) (files w) = Some r ->
  exists w',
    generate_from_text E self text cache_dir path w = (Ok r, w') /\
    trace w' = trace w /\ files w' = files w.
Proof.
  intros Hhit. exists w. by rewrite (generate_hit _ _ _ r Hhit).
Qed.

(** C7.  On a cache miss with a successful synthesis, the endpoint is
    called once with the stripped text, the resolved voice id, the
    model, the output format and the voice settings, and the file
    [<cache_dir>/<audio_path>] then holds the in-order concatenation of
    the chunks the endpoint yielded, whatever it held before; the other
    files are untouched. *)
Theorem synthesis_writes_concatenated_chunks cache_dir path w g :
  let p := path_join E (cache_dir_of self cache_dir)
             (audio_path_of E self text path) in
  get_cached_result E (build_input_data E self text)
    (cache_dir_of self cache_dir) (files w) = None ->
  text_to_speech_convert E (request_of E self text) = Ok g ->
  gen_error g = None ->
  open_wb_error E p (files w) = None ->
  write_error E p (concat (gen_chunks g)) = None ->
  exists res w',
    generate_from_text E self text cache_dir path w = (Ok res, w') /\
    trace w'
    = trace w ++
      [EvConvert {| arg_text := remove_bookmarks E text;
                    arg_voice_id := self_voice_id self;
                    arg_model_id := self_model self;
                    arg_output_format := self_output_format self;
                    arg_voice_settings := self_voice_settings self |}] /\
    files w' !! path_join E (cache_dir_of self cache_dir)
                  (original_audio res)
    = Some (concat (gen_chunks g)) /\
    forall q, q <> p -> files w' !! q = files w !! q.
Proof.
  intros p Hmiss Hconv Hgen Hopen Hwrite.
  eexists _, _. split.
  - by apply (generate_miss_success cache_dir path w g).
  - simpl. split; [reflexivity|]. split.
    + apply lookup_insert_eq.
    + intros q Hq. by apply lookup_insert_ne.
Qed.

(** C8.  On a cache miss with a successful synthesis, the record
    returned holds the text as it was passed (bookmarks included), the
    fingerprint, and the audio path: the [path] argument when one is
    given, else the basename derived from the fingerprint followed by
    ".mp3". *)
Theorem synthesis_returns_record cache_dir path w g :
  let p := path_join E (cache_dir_of self cache_dir)
             (audio_path_of E self text path) in
  get_cached_result E (build_input_data E self text)
    (cache_dir_of self cache_dir) (files w) = None ->
  text_to_speech_convert E (request_of E self text) = Ok g ->
  gen_error g = None ->
  open_wb_error E p (files w) = None ->
  write_error E p (concat (gen_chunks g)) = None ->
  exists w',
    generate_from_text E self text cache_dir path w
    = (Ok {| input_text := text;
             input_data := build_input_data E self text;
             original_audio :=
               match path with
               | Some given => given
               | None =>
                   get_audio_basename E (build_input_data E self text)
                     +:+ ".mp3"
               end |}, w').
Proof.
  intros p Hmiss Hconv Hgen Hopen Hwrite.
  eexists. by apply (generate_miss_success cache_dir path w g).
Qed.

(** C9 (amended).  Every failure of the remote call, of the audio
    stream or of the file write is caught: its text is logged as "Error
    using ElevenLabs API: <error>" and the call raises an exception whose
    class, [Exception], and message, "Failed to generate speech with
    ElevenLabs.", are the same for every failure.  The failure that was
    caught stays attached to it as its [__context__]: it is through this
    link, not through the class or the message, that the exception tells
    one failure from another. *)
Theorem synthesis_failure_wraps_cause cache_dir path w e :
  get_cached_result E (build_input_data E self text)
    (cache_dir_of self cache_dir) (files w) = None ->
  synthesis_fails E (request_of E self text)
    (path_join E (cache_dir_of self cache_dir)
       (audio_path_of E self text path)) (files w) e ->
  exists ex w',
    generate_from_text E self text cache_dir path w = (Raise ex, w') /\
    exn_class ex = "Exception" /\
    exn_str ex = "Failed to generate speech with ElevenLabs." /\
    exn_context ex = Some e /\
    last (trace w') = Some (error_api e).
Proof.
  intros Hmiss Hfail.
  destruct (generate_miss_failure cache_dir path w e Hmiss Hfail)
    as [fs Hgen].
  eexists _, _. split; [exact Hgen|]. do 3 (split; [reflexivity|]). simpl.
  change [EvConvert (request_of E self text); error_api e]
    with ([EvConvert (request_of E self text)] ++ [error_api e]).
  rewrite app_assoc. apply last_snoc.
Qed.

(** C10.  On a cache hit the [path] argument plays no part: for every
    [path] the call returns the cached record, whose [original_audio] is
    the cached one, exactly as it does without a [path], and the file at
    the supplied path is left as it was. *)
Theorem cache_hit_ignores_path cache_dir w r :
  get_cached_result E (build_input_data E self text)
    (cache_dir_of self cache_dir) (files w) = Some r ->
  forall path : option string,
  exists res w',
    generate_from_text E self text cache_dir path w = (Ok res, w') /\
    res = r /\ original_audio res = original_audio r /\
    generate_from_text E self text cache_dir path w
    = generate_from_text E self text cache_dir None w /\
    forall given, path = Some given ->
      files w' !! path_join E (cache_dir_of self cache_dir) given
      = files w !! path_join E (cache_dir_of self cache_dir) given.
Proof.
  intros Hhit path. exists r, w.
  rewrite !(generate_hit _ _ _ r Hhit). done.
Qed.

End Synthesis.

(** ** The model at work on the sample environments *)

Section Runs.
Import ElevenLabsService.

Local Abbreviation construct E vn vid :=
  (__init__ E vn vid "eleven_multilingual_v2" None "mp3_44100_128"
     "base" ∅ w0).

Local Abbreviation resolves E vn vid r evs :=
  (resolves_to E vn vid "eleven_multilingual_v2" None "mp3_44100_128"
     "base" ∅ w0 r evs).

(** The fingerprint of the sample request. *)
Example sample_fingerprint :
  build_input_data env_ok sample_service sample_text
  = {| fp_input_text := "Hello  world";
       fp_service := "elevenlabs";
       fp_config := {| cfg_model := "eleven_multilingual_v2";
                       cfg_voice_id := Some "V1" |} |}.
Proof. reflexivity. Qed.

(** With neither a name nor an id, the first listed voice is used. *)
Example default_voice_run :
  construct env_ok None None
  = (Ok (mk "eleven_multilingual_v2" None "mp3_44100_128"
           (Some "v-rachel") "media/voiceovers"),
     {| trace := [warn_no_voice_given; EvGetAll;
                  EvLog Info "Using default voice: Rachel"];
        files := ∅ |}).
Proof. reflexivity. Qed.

Lemma first_named_blank :
  first_named "" sample_voices 2 (Voice.mk "" "v-blank").
Proof.
  split; [reflexivity|]. split; [reflexivity|].
  intros [|[|j]] v' Hj Hlt; simpl in Hj; [| |lia];
    injection Hj as <-; discriminate.
Qed.

Lemma first_named_Adam :
  first_named "Adam" sample_voices 1 (Voice.mk "Adam" "v-adam").
Proof.
  split; [reflexivity|]. split; [reflexivity|].
  intros [|j] v' Hj Hlt; simpl in Hj; [|lia].
  injection Hj as <-; discriminate.
Qed.

Lemma no_voice_named_adam :
  forall v, v ∈ sample_voices -> Voice.name v <> "adam".
Proof.
  intros v Hv. unfold sample_voices in Hv.
  rewrite !elem_of_cons, elem_of_nil in Hv.
  destruct Hv as [->|[->|[->|[]]]]; discriminate.
Qed.

(** C1 as stated fails for the empty voice name, which the constructor
    takes for no name at all: no id given, the name [""] given, the
    third listed voice bears that name, and yet the constructor resolves
    to the first listed voice without scanning. *)
Lemma empty_voice_name_skips_scan :
  first_named "" sample_voices 2 (Voice.mk "" "v-blank") /\
  exists svc w',
    construct env_ok (Some "") None = (Ok svc, w') /\
    self_voice_id svc = Some "v-rachel" /\
    self_voice_id svc <> Some "v-blank".
Proof.
  split; [exact first_named_blank|].
  eexists _, _. split; [reflexivity|]. split; [reflexivity|discriminate].
Qed.

(** C2 as stated fails for the empty voice id, which the constructor
    takes for no id at all: the voice list is fetched and the first
    listed voice is used. *)
Lemma empty_voice_id_triggers_fetch :
  exists svc w',
    construct env_ok None (Some "") = (Ok svc, w') /\
    self_voice_id svc <> Some "" /\
    EvGetAll ∈ trace w'.
Proof.
  eexists _, _. split; [reflexivity|]. split; [discriminate|].
  simpl. right. left.
Qed.

(** C3 as stated fails: with an empty voice list, construction returns
    on both "use first entry" paths, with no voice id. *)
Lemma empty_voice_list_does_not_crash :
  (exists svc w',
     construct env_no_voices None None = (Ok svc, w') /\
     self_voice_id svc = None) /\
  (exists svc w',
     construct env_no_voices (Some "Rachel") None = (Ok svc, w') /\
     self_voice_id svc = None).
Proof.
  split; eexists _, _; (split; [reflexivity|reflexivity]).
Qed.

Lemma voice_name_resolution_witness :
  resolves env_ok (Some "Adam") None (Some "v-adam") [EvGetAll] /\
  resolves env_ok (Some "adam") None (Some "v-rachel")
    [EvGetAll; warn_name_not_found "adam"].
Proof.
  split.
  - apply (proj1 (voice_name_resolution env_ok "eleven_multilingual_v2"
                    None "mp3_44100_128" "base" ∅ "Adam" None w0
                    sample_voices eq_refl ltac:(discriminate) eq_refl)
             1 (Voice.mk "Adam" "v-adam")).
    exact first_named_Adam.
  - apply (proj2 (voice_name_resolution env_ok "eleven_multilingual_v2"
                    None "mp3_44100_128" "base" ∅ "adam" None w0
                    sample_voices eq_refl ltac:(discriminate) eq_refl)
             (Voice.mk "Rachel" "v-rachel") _ eq_refl).
    exact no_voice_named_adam.
Defined.

Lemma voice_id_used_verbatim_witness :
  resolves env_ok (Some "Rachel") (Some "V1") (Some "V1") [] /\
  construct env_ok (Some "Rachel") (Some "V1")
  = base_init_with env_ok "eleven_multilingual_v2" None "mp3_44100_128"
      "base" ∅ (Some "V1") w0.
Proof.
  apply (voice_id_used_verbatim env_ok "eleven_multilingual_v2" None
           "mp3_44100_128" "base" ∅ (Some "Rachel") "V1" w0).
  discriminate.
Defined.

Lemma empty_voice_list_is_caught_witness :
  construct env_no_voices None None
  = (Ok (mk "eleven_multilingual_v2" None "mp3_44100_128" None
           "media/voiceovers"),
     {| trace := [warn_no_voice_given; EvGetAll;
                  error_get_voices IndexError];
        files := ∅ |}).
Proof.
  apply (proj2 (empty_voice_list_is_caught env_no_voices
                  "eleven_multilingual_v2" None "mp3_44100_128" "base" ∅
                  None None w0 eq_refl eq_refl)).
  reflexivity.
Defined.

Lemma fetch_error_is_caught_witness :
  construct env_down (Some "Rachel") None
  = (Ok (mk "eleven_multilingual_v2" None "mp3_44100_128" None
           "media/voiceovers"),
     {| trace := [EvGetAll; error_get_voices timeout_error];
        files := ∅ |}).
Proof.
  apply (proj2 (fetch_error_is_caught env_down
                  "eleven_multilingual_v2" None "mp3_44100_128" "base" ∅
                  (Some "Rachel") None w0 timeout_error eq_refl eq_refl)).
  reflexivity.
Defined.

Lemma fingerprint_ignores_settings_and_format_witness :
  build_input_data env_cached sample_service sample_text
  = build_input_data env_cached sample_service' sample_text /\
  generate_from_text env_cached sample_service' sample_text None
    (Some "take2.mp3") w0
  = (Ok sample_cached, w0).
Proof.
  split.
  - apply (proj1 (fingerprint_ignores_settings_and_format env_cached
                    sample_service sample_text sample_service'
                    eq_refl eq_refl)).
  - apply (proj2 (proj2 (fingerprint_ignores_settings_and_format
                           env_cached sample_service sample_text
                           sample_service' eq_refl eq_refl)));
      reflexivity.
Defined.

Lemma cache_hit_returns_cached_witness :
  exists w',
    generate_from_text env_cached sample_service sample_text None None w1
    = (Ok sample_cached, w') /\
    trace w' = trace w1 /\ files w' = files w1.
Proof.
  apply (cache_hit_returns_cached env_cached sample_service sample_text
           None None w1 sample_cached).
  reflexivity.
Defined.

Lemma synthesis_writes_concatenated_chunks_witness :
  exists res w',
    generate_from_text env_ok sample_service sample_text None None w1
    = (Ok res, w') /\
    trace w'
    = trace w1 ++
      [EvConvert {| arg_text := "Hello  world";
                    arg_voice_id := Some "V1";
                    arg_model_id := "eleven_multilingual_v2";
                    arg_output_format := "mp3_44100_128";
                    arg_voice_settings := None |}] /\
    files w' !! ("media/voiceovers" +:+ "/" +:+ original_audio res)
    = Some [x49; x44; x33] /\
    forall q, q <> "media/voiceovers/speech-Hello  world.mp3" ->
      files w' !! q = files w1 !! q.
Proof.
  apply (synthesis_writes_concatenated_chunks env_ok sample_service
           sample_text None None w1 sample_generator);
    reflexivity.
Defined.

Lemma synthesis_returns_record_witness :
  exists w',
    generate_from_text env_ok sample_service sample_text
      (Some "scratch") (Some "intro.mp3") w0
    = (Ok {| input_text := "Hello <bookmark mark='a'/> world";
             input_data := build_input_data env_ok sample_service
                             sample_text;
             original_audio := "intro.mp3" |}, w').
Proof.
  apply (synthesis_returns_record env_ok sample_service sample_text
           (Some "scratch") (Some "intro.mp3") w0 sample_generator);
    reflexivity.
Defined.

Lemma synthesis_failure_wraps_cause_witness :
  exists ex w',
    generate_from_text env_down sample_service sample_text None None w0
    = (Raise ex, w') /\
    exn_class ex = "Exception" /\
    exn_str ex = "Failed to generate speech with ElevenLabs." /\
    exn_context ex = Some quota_error /\
    last (trace w') = Some (error_api quota_error).
Proof.
  apply (synthesis_failure_wraps_cause env_down sample_service sample_text
           None None w0 quota_error).
  - reflexivity.
  - apply convert_raises. reflexivity.
Defined.

(** C9 as stated fails: the exception raised after a quota failure of
    the remote call and the one raised after a disk failure of the write
    differ, each carrying the failure that caused it in its
    [__context__], so the caller can tell the two apart. *)
Lemma failure_cause_reaches_caller :
  exists ex_quota ex_disk wa wb,
    generate_from_text env_down sample_service sample_text None None w0
    = (Raise ex_quota, wa) /\
    generate_from_text env_disk_full sample_service sample_text None None w0
    = (Raise ex_disk, wb) /\
    exn_context ex_quota = Some quota_error /\
    exn_context ex_disk = Some disk_full_error /\
    ex_quota <> ex_disk.
Proof.
  destruct (generate_miss_failure env_down sample_service sample_text
              None None w0 quota_error eq_refl) as [fsa Ha].
  { apply convert_raises. reflexivity. }
  destruct (generate_miss_failure env_disk_full sample_service sample_text
              None None w0 disk_full_error eq_refl) as [fsb Hb].
  { apply (write_raises _ _ _ _ _ sample_generator 0); reflexivity. }
  eexists _, _, _, _. split; [exact Ha|]. split; [exact Hb|].
  split; [reflexivity|]. split; [reflexivity|]. discriminate.
Qed.

Lemma cache_hit_ignores_path_witness :
  exists res w',
    generate_from_text env_cached sample_service sample_text None
      (Some "elsewhere.mp3") w0
    = (Ok res, w') /\
    res = sample_cached /\
    original_audio res = original_audio sample_cached /\
    generate_from_text env_cached sample_service sample_text None
      (Some "elsewhere.mp3") w0
    = generate_from_text env_cached sample_service sample_text None None
        w0 /\
    forall given, Some "elsewhere.mp3" = Some given ->
      files w' !! path_join env_cached
                    (cache_dir_of sample_service None) given
      = files w0 !! path_join env_cached
                      (cache_dir_of sample_service None) given.
Proof.
  apply (cache_hit_ignores_path env_cached sample_service sample_text
           None w0 sample_cached).
  reflexivity.
Defined.

End Runs.

(** * Further properties *)

(** ** Every outcome of the voice resolution *)

Section ConstructionOutcomes.
Import ElevenLabsService.
Context (E : Env) (model : string) (voice_settings : option pydict)
  (output_format transcription_model : string) (kwargs : pydict).

Local Abbreviation resolves vn vid w r evs :=
  (resolves_to E vn vid model voice_settings output_format
     transcription_model kwargs w r evs).

Local Abbreviation construct vn vid w :=
  (__init__ E vn vid model voice_settings output_format
     transcription_model kwargs w).

(** The voice block never raises: whatever the remote does, it ends
    with a value for [self.voice_id], having fetched the list once when
    [voice_id] is absent or empty and never otherwise.  The value is
    [None] exactly when a fetch was needed and failed or found no voice;
    a value found by a fetch is the id of a listed voice. *)
Lemma determine_voice_outcome vn vid w :
  exists r evs,
    determine_voice E vn vid w
    = (Ok r, {| trace := trace w ++ evs; files := files w |}) /\
    count_events is_fetch evs = (if truthy vid then 0 else 1) /\
    (truthy vid = true -> r = vid) /\
    (r = None <->
     truthy vid = false /\
     ((exists e, voices_get_all E = Raise e) \/ voices_get_all E = Ok [])) /\
    (forall i, truthy vid = false -> r = Some i ->
       exists vs v, voices_get_all E = Ok vs /\ v ∈ vs /\
                    Voice.voice_id v = i).
Proof.
  destruct (truthy vid) eqn:Hvid.
  - exists vid, []. rewrite world_no_events.
    split; [by apply determine_voice_id|]. split; [done|]. split; [done|].
    split; [|done]. split.
    + intros ->. discriminate.
    + intros [? _]. discriminate.
  - destruct (voices_get_all E) as [vs|e] eqn:Hfetch.
    + destruct (truthy vn) eqn:Hvn.
      * destruct (truthy_true_Some vn Hvn) as (n & -> & Hn).
        pose proof (determine_voice_named E n vid w vs Hvid Hn Hfetch) as Hdv.
        destruct (filter (fun v => Some (Voice.name v) = Some n) vs)
          as [|v sel] eqn:Hsel.
        -- destruct vs as [|v0 vs'].
           ++ eexists _, _. split; [exact Hdv|]. split; [done|].
              split; [done|]. split; [|done]. split; [|done].
              intros _. split; [done|]. by right.
           ++ eexists _, _. split; [exact Hdv|]. split; [done|].
              split; [done|]. split.
              ** split; [done|]. intros [_ [[e [=]]|[=]]].
              ** intros i _ [= <-]. exists (v0 :: vs'), v0.
                 split; [done|]. split; [by left|done].
        -- eexists _, _. split; [exact Hdv|]. split; [done|].
           split; [done|]. split.
           ++ split; [done|]. intros [_ [[e [=]]|[= ->]]]. done.
           ++ intros i _ [= <-]. exists vs, v. split; [done|].
              split; [|done].
              assert (Hin : v ∈ filter (fun v => Some (Voice.name v) = Some n)
                              vs) by (rewrite Hsel; by left).
              by apply list_elem_of_filter in Hin as [_ Hin].
      * pose proof (determine_voice_default E vn vid w vs Hvn Hvid Hfetch)
          as Hdv.
        destruct vs as [|v0 vs'].
        -- eexists _, _. split; [exact Hdv|]. split; [done|].
           split; [done|]. split; [|done]. split; [|done].
           intros _. split; [done|]. by right.
        -- eexists _, _. split; [exact Hdv|]. split; [done|].
           split; [done|]. split.
           ++ split; [done|]. intros [_ [[e [=]]|[=]]].
           ++ intros i _ [= <-]. exists (v0 :: vs'), v0.
              split; [done|]. split; [by left|done].
    + pose proof (determine_voice_fetch_error E vn vid w e Hvid Hfetch)
        as Hdv.
      eexists _, _. split; [exact Hdv|].
      split; [by destruct (truthy vn)|]. split; [done|].
      split; [|done]. split; [|done]. intros _. split; [done|].
      left. by exists e.
Qed.

Lemma init_returns vn vid w r w1 svc w' :
  determine_voice E vn vid w = (Ok r, w1) ->
  construct vn vid w = (Ok svc, w') ->
  svc = mk model voice_settings output_format r (self_cache_dir svc) /\
  SpeechService_init E transcription_model kwargs w1
  = (Ok (self_cache_dir svc), w').
Proof.
  intros Hdv. unfold __init__. unfold bind at 1. rewrite Hdv.
  unfold bind, ret.
  destruct (SpeechService_init E transcription_model kwargs w1)
    as [[cd|e] w2]; [|discriminate].
  by intros [= <- <-].
Qed.

(** X1.  With neither a voice name nor a voice id (each absent or empty)
    and a non-empty voice list, the constructor resolves to the first
    listed voice, after the warning that the default voice will be used,
    one fetch, and the information "Using default voice: <name>". *)
Theorem default_voice_resolution vn vid w v vs :
  truthy vn = false -> truthy vid = false ->
  voices_get_all E = Ok (v :: vs) ->
  resolves vn vid w (Some (Voice.voice_id v))
    [warn_no_voice_given; EvGetAll;
     EvLog Info ("Using default voice: " +:+ Voice.name v)].
Proof.
  intros Hvn Hvid Hfetch. apply resolves_to_intro.
  by rewrite (determine_voice_default E vn vid w (v :: vs) Hvn Hvid Hfetch).
Qed.

(** X2.  The block "Determine voice to use" of the constructor (lines
    96-128) never raises: whether the fetch of the voice list returns a
    list, empty or not, or raises an [Exception], the block ends with a
    value for [self.voice_id] and touches no file.  It fetches the voice
    list exactly once when [voice_id] is absent or empty, and never
    otherwise. *)
Theorem voice_block_never_raises vn vid w :
  exists r evs,
    determine_voice E vn vid w
    = (Ok r, {| trace := trace w ++ evs; files := files w |}) /\
    count_events is_fetch evs = (if truthy vid then 0 else 1).
Proof.
  destruct (determine_voice_outcome vn vid w)
    as (r & evs & Hdv & Hcount & _).
  by exists r, evs.
Qed.

(** X3.  When [voice_id] is absent or empty, a voice id held by the
    constructed service is the id of one of the voices the remote
    listed. *)
Theorem resolved_voice_is_listed vn vid w svc w' i :
  truthy vid = false ->
  construct vn vid w = (Ok svc, w') ->
  self_voice_id svc = Some i ->
  exists vs v, voices_get_all E = Ok vs /\ v ∈ vs /\ Voice.voice_id v = i.
Proof.
  intros Hvid Hinit Hi.
  destruct (determine_voice_outcome vn vid w)
    as (r & evs & Hdv & _ & _ & _ & Hlisted).
  destruct (init_returns vn vid w r _ svc w' Hdv Hinit) as [Hsvc _].
  apply Hlisted; [done|]. rewrite Hsvc in Hi. exact Hi.
Qed.

(** X4.  A constructed service is left without a voice id exactly when
    [voice_id] was absent or empty and the fetch of the voice list either
    failed or returned no voice. *)
Theorem no_voice_iff_fetch_fruitless vn vid w svc w' :
  construct vn vid w = (Ok svc, w') ->
  (self_voice_id svc = None <->
   truthy vid = false /\
   ((exists e, voices_get_all E = Raise e) \/ voices_get_all E = Ok [])).
Proof.
  intros Hinit.
  destruct (determine_voice_outcome vn vid w)
    as (r & evs & Hdv & _ & _ & Hnone & _).
  destruct (init_returns vn vid w r _ svc w' Hdv Hinit) as [Hsvc _].
  rewrite <- Hnone. rewrite Hsvc. reflexivity.
Qed.

End ConstructionOutcomes.

(** ** Every outcome of a synthesis call *)

Lemma concat_all_empty {A} (chunks : list (list A)) :
  Forall (fun c => c = []) chunks -> concat chunks = [].
Proof. induction 1 as [|c cs -> _ IH]; [done|]. by simpl. Qed.

(** The five ways a call can go. *)
Lemma generate_cases (E : Env) (self : ElevenLabsService.t) (text : string)
    cache_dir path w :
  let cd := cache_dir_of self cache_dir in
  let p := path_join E cd (audio_path_of E self text path) in
  let req := request_of E self text in
  let failed e fs :=
    (Raise (with_context ElevenLabsService.synthesis_failure e),
     {| trace := trace w ++ [EvConvert req; error_api e]; files := fs |}) in
  ElevenLabsService.generate_from_text E self text cache_dir path w =
  match get_cached_result E (ElevenLabsService.build_input_data E self text) cd (files w) with
  | Some r => (Ok r, w)
  | None =>
      match text_to_speech_convert E req with
      | Raise e => failed e (files w)
      | Ok g =>
          match gen_error g with
          | Some e => failed e (files w)
          | None =>
              match open_wb_error E p (files w) with
              | Some e => failed e (files w)
              | None =>
                  match write_error E p (concat (gen_chunks g)) with
                  | Some (e, n) =>
                      failed e (<[p := take n (concat (gen_chunks g))]>
                                  (files w))
                  | None =>
                      (Ok {| input_text := text;
                             input_data := ElevenLabsService.build_input_data E self text;
                             original_audio := audio_path_of E self text path |},
                       {| trace := trace w ++ [EvConvert req];
                          files := <[p := concat (gen_chunks g)]> (files w) |})
                  end
              end
          end
      end
  end.
Proof.
  intros cd p req failed. subst cd p req failed.
  destruct (get_cached_result E
              (ElevenLabsService.build_input_data E self text)
              (cache_dir_of self cache_dir) (files w)) as [r|] eqn:Hcache.
  { by apply generate_hit. }
  unfold ElevenLabsService.generate_from_text, self_get_cached_result.
  unfold bind at 1. unfold cache_dir_of, audio_path_of, request_of in *.
  destruct cache_dir, path; simpl in *; rewrite Hcache;
    unfold client_text_to_speech_convert, bytes_join, open_wb, f_write;
    py_unfold;
    (destruct (text_to_speech_convert E _) as [g|e]; simpl;
     [|trace_norm; reflexivity]);
    (destruct (gen_error g) as [e|]; simpl; [trace_norm; reflexivity|]);
    (destruct (open_wb_error E _ (files w)) as [e|]; simpl;
     [trace_norm; reflexivity|]);
    (destruct (write_error E _ (concat (gen_chunks g))) as [[e n]|]; simpl;
     trace_norm; by rewrite insert_insert_eq).
Qed.

Section SynthesisOutcomes.
Import ElevenLabsService.
Context (E : Env) (self : t) (text : string).

(** X5.  When the remote call raises, or the audio stream raises while
    it is read, no file is created or changed: the stream is read to its
    end before the destination is opened.  The trace gains the request
    and the logged error, and the call raises the generic failure. *)
Theorem remote_failure_writes_nothing cache_dir path w e :
  get_cached_result E (build_input_data E self text)
    (cache_dir_of self cache_dir) (files w) = None ->
  (text_to_speech_convert E (request_of E self text) = Raise e \/
   exists g, text_to_speech_convert E (request_of E self text) = Ok g /\
             gen_error g = Some e) ->
  exists w',
    generate_from_text E self text cache_dir path w
    = (Raise (with_context synthesis_failure e), w') /\
    files w' = files w /\
    trace w' = trace w ++ [EvConvert (request_of E self text); error_api e].
Proof.
  intros Hmiss Hfail. rewrite generate_cases. cbv zeta. rewrite Hmiss.
  destruct Hfail as [Hc | (g & Hc & Hg)]; rewrite Hc; [|rewrite Hg];
    by eexists.
Qed.

(** X6.  Whatever the outcome of a call (cache hit, success or failure),
    every file other than the destination [<cache_dir>/<audio_path>] is
    left as it was. *)
Theorem other_files_untouched cache_dir path w q :
  q <> path_join E (cache_dir_of self cache_dir)
         (audio_path_of E self text path) ->
  files (generate_from_text E self text cache_dir path w).2 !! q
  = files w !! q.
Proof.
  intros Hq. rewrite generate_cases. cbv zeta.
  repeat case_match; simpl; try reflexivity; by rewrite lookup_insert_ne.
Qed.

(** X7.  A call adds events at the end of the trace and never fetches
    the voice list; it sends no synthesis request on a cache hit and
    exactly one on a cache miss, whether the synthesis then succeeds or
    fails: nothing is retried. *)
Theorem one_request_per_miss cache_dir path w :
  exists evs,
    trace (generate_from_text E self text cache_dir path w).2
    = trace w ++ evs /\
    count_events is_fetch evs = 0 /\
    count_events is_request evs
    = match get_cached_result E (build_input_data E self text)
              (cache_dir_of self cache_dir) (files w) with
      | Some _ => 0
      | None => 1
      end.
Proof.
  rewrite generate_cases. cbv zeta.
  destruct (get_cached_result E _ _ _) as [r|].
  { exists []. by rewrite app_nil_r. }
  repeat case_match; simpl; by eexists.
Qed.

(** X8.  Two requests have the same fingerprint exactly when their
    bookmark-stripped texts, their models and their voice ids agree: a
    change of model or of voice id, or of the text outside bookmarks,
    always changes the fingerprint. *)
Theorem fingerprint_equal_iff (self' : t) (text' : string) :
  build_input_data E self text = build_input_data E self' text' <->
  remove_bookmarks E text = remove_bookmarks E text' /\
  self_model self = self_model self' /\
  self_voice_id self = self_voice_id self'.
Proof.
  unfold build_input_data. split.
  - by intros [= -> -> ->].
  - by intros (-> & -> & ->).
Qed.

(** X9.  When the endpoint yields no byte at all (no chunk, or empty
    chunks only), the call still succeeds: it leaves an empty file at the
    destination and returns the record of that file. *)
Theorem silent_stream_writes_empty_file cache_dir path w g :
  let p := path_join E (cache_dir_of self cache_dir)
             (audio_path_of E self text path) in
  get_cached_result E (build_input_data E self text)
    (cache_dir_of self cache_dir) (files w) = None ->
  text_to_speech_convert E (request_of E self text) = Ok g ->
  gen_error g = None ->
  Forall (fun chunk => chunk = []) (gen_chunks g) ->
  open_wb_error E p (files w) = None ->
  write_error E p [] = None ->
  exists res w',
    generate_from_text E self text cache_dir path w = (Ok res, w') /\
    original_audio res = audio_path_of E self text path /\
    files w' !! p = Some [].
Proof.
  intros p Hmiss Hc Hg Hempty Ho Hw. rewrite generate_cases. cbv zeta.
  rewrite Hmiss, Hc, Hg. fold p. rewrite Ho.
  rewrite (concat_all_empty _ Hempty), Hw.
  eexists _, _. split; [reflexivity|]. split; [reflexivity|].
  simpl. apply lookup_insert_eq.
Qed.

(** X10.  The destination of a call without [path] depends on the
    fingerprint alone.  So when a service that agrees with this one on
    model and voice id synthesises the same text after it, the cache index
    still lacking the fingerprint, it writes to the same file: the audio
    of the later call replaces that of the earlier one. *)
Theorem later_synthesis_replaces_audio (self' : t) cache_dir w g g' :
  let cd := cache_dir_of self cache_dir in
  let p := path_join E cd (audio_path_of E self text None) in
  let fs := <[p := concat (gen_chunks g)]> (files w) in
  self_model self = self_model self' ->
  self_voice_id self = self_voice_id self' ->
  cache_dir_of self' cache_dir = cd ->
  get_cached_result E (build_input_data E self text) cd (files w) = None ->
  text_to_speech_convert E (request_of E self text) = Ok g ->
  gen_error g = None ->
  open_wb_error E p (files w) = None ->
  write_error E p (concat (gen_chunks g)) = None ->
  get_cached_result E (build_input_data E self text) cd fs = None ->
  text_to_speech_convert E (request_of E self' text) = Ok g' ->
  gen_error g' = None ->
  open_wb_error E p fs = None ->
  write_error E p (concat (gen_chunks g')) = None ->
  exists res w1 res' w2,
    generate_from_text E self text cache_dir None w = (Ok res, w1) /\
    generate_from_text E self' text cache_dir None w1 = (Ok res', w2) /\
    original_audio res' = original_audio res /\
    files w1 !! path_join E cd (original_audio res)
    = Some (concat (gen_chunks g)) /\
    files w2 !! path_join E cd (original_audio res)
    = Some (concat (gen_chunks g')).
Proof.
  intros cd p fs Hmodel Hvid Hdir Hmiss Hc Hg Ho Hw Hmiss' Hc' Hg' Ho' Hw'.
  assert (Hfp : build_input_data E self' text = build_input_data E self text).
  { unfold build_input_data. by rewrite Hmodel, Hvid. }
  assert (Hpath : audio_path_of E self' text None
                  = audio_path_of E self text None).
  { unfold audio_path_of. by rewrite Hfp. }
  eexists _, _, _, _. split.
  { rewrite generate_cases. cbv zeta. fold cd. rewrite Hmiss, Hc, Hg.
    fold p. rewrite Ho, Hw. reflexivity. }
  split.
  { rewrite generate_cases. cbv zeta. rewrite Hdir, Hfp, Hpath.
    cbn [files trace]. fold p. fold fs.
    rewrite Hmiss', Hc', Hg', Ho', Hw'. reflexivity. }
  cbn [files trace original_audio]. fold p.
  split; [done|]. split; apply lookup_insert_eq.
Qed.

End SynthesisOutcomes.

(** ** Construction followed by synthesis *)

Section ConstructThenSynthesise.
Import ElevenLabsService.
Context (E : Env) (model : string) (voice_settings : option pydict)
  (output_format transcription_model : string) (kwargs : pydict).

Local Abbreviation construct vn vid w :=
  (__init__ E vn vid model voice_settings output_format
     transcription_model kwargs w).

(** On a cache miss the trace goes on with the request. *)
Lemma miss_sends_request (self : t) text cache_dir path w :
  get_cached_result E (build_input_data E self text)
    (cache_dir_of self cache_dir) (files w) = None ->
  exists rest,
    trace (generate_from_text E self text cache_dir path w).2
    = trace w ++ EvConvert (request_of E self text) :: rest.
Proof.
  intros Hmiss. rewrite generate_cases. cbv zeta. rewrite Hmiss.
  repeat case_match; simpl; by eexists.
Qed.

(** X11.  A service constructed with a non-empty [voice_id] carries the
    constructor's arguments into every synthesis: the fingerprint holds
    the model and that voice id, and on a cache miss the request sent to
    the endpoint holds the stripped text, that voice id, the model, the
    output format and the voice settings given to the constructor. *)
Theorem constructed_service_request vn (s : string) w svc w1
    text cache_dir path :
  s <> "" ->
  construct vn (Some s) w = (Ok svc, w1) ->
  get_cached_result E (build_input_data E svc text)
    (cache_dir_of svc cache_dir) (files w1) = None ->
  build_input_data E svc text
  = {| fp_input_text := remove_bookmarks E text;
       fp_service := "elevenlabs";
       fp_config := {| cfg_model := model; cfg_voice_id := Some s |} |} /\
  exists rest,
    trace (generate_from_text E svc text cache_dir path w1).2
    = trace w1 ++
      EvConvert {| arg_text := remove_bookmarks E text;
                   arg_voice_id := Some s;
                   arg_model_id := model;
                   arg_output_format := output_format;
                   arg_voice_settings := voice_settings |} :: rest.
Proof.
  intros Hs Hinit Hmiss.
  destruct (init_returns E model voice_settings output_format
              transcription_model kwargs vn (Some s) w (Some s) w svc w1
              (determine_voice_id E vn (Some s) w (truthy_Some s Hs)) Hinit)
    as [Hsvc _].
  destruct (miss_sends_request svc text cache_dir path w1 Hmiss)
    as [rest Hrest].
  split.
  - rewrite Hsvc. reflexivity.
  - exists rest. rewrite Hrest. do 3 f_equal.
    rewrite Hsvc. reflexivity.
Qed.

(** X12.  A service constructed while the voice list could not be
    fetched, or was empty, is not stopped at synthesis: on a cache miss
    it sends the request to the endpoint with no voice id. *)
Theorem unset_voice_is_sent_unchecked vn vid w svc w1 text cache_dir path :
  truthy vid = false ->
  (exists e, voices_get_all E = Raise e) \/ voices_get_all E = Ok [] ->
  construct vn vid w = (Ok svc, w1) ->
  get_cached_result E (build_input_data E svc text)
    (cache_dir_of svc cache_dir) (files w1) = None ->
  exists rest,
    trace (generate_from_text E svc text cache_dir path w1).2
    = trace w1 ++
      EvConvert {| arg_text := remove_bookmarks E text;
                   arg_voice_id := None;
                   arg_model_id := model;
                   arg_output_format := output_format;
                   arg_voice_settings := voice_settings |} :: rest.
Proof.
  intros Hvid Hfetch Hinit Hmiss.
  destruct (determine_voice_outcome E vn vid w)
    as (r & evs & Hdv & _ & _ & Hnone & _).
  destruct (init_returns E model voice_settings output_format
              transcription_model kwargs vn vid w r _ svc w1 Hdv Hinit)
    as [Hsvc _].
  assert (r = None) as -> by (by apply Hnone).
  destruct (miss_sends_request svc text cache_dir path w1 Hmiss)
    as [rest Hrest].
  exists rest. rewrite Hrest. do 3 f_equal.
  rewrite Hsvc. reflexivity.
Qed.

End ConstructThenSynthesise.

(** ** The credential check *)

(** X13.  [create_dotenv_elevenlabs] returns exactly when the key
    ELEVEN_API_KEY is present in the environment, whatever its value, the
    empty string included; it then only logs where to get a key and does
    not run the [.env] helper.  It ends the process through [sys.exit()]
    exactly when the key is missing and the helper reports that a [.env]
    file was created. *)
Theorem credential_check_outcomes (environ : gmap string string)
    (create_dotenv_file : list string -> Py bool) (w : world) :
  let w1 := (logger_info
               ("Check out https://voiceover.manim.community/en/stable/services.html#elevenlabs"
                +:+ " to learn how to create an account and get your subscription key.")
               w).2 in
  ((create_dotenv_elevenlabs environ create_dotenv_file w).1 = Returned <->
   is_Some (environ !! "ELEVEN_API_KEY")) /\
  (is_Some (environ !! "ELEVEN_API_KEY") ->
   create_dotenv_elevenlabs environ create_dotenv_file w = (Returned, w1)) /\
  ((create_dotenv_elevenlabs environ create_dotenv_file w).1 = Exited <->
   environ !! "ELEVEN_API_KEY" = None /\
   (create_dotenv_file ["ELEVEN_API_KEY"] w1).1 = Ok true).
Proof.
  intros w1. subst w1. unfold create_dotenv_elevenlabs. simpl.
  destruct (environ !! "ELEVEN_API_KEY") as [v|].
  - split; [by split; eauto|]. split; [done|]. split; [done|].
    by intros [? _].
  - destruct (create_dotenv_file ["ELEVEN_API_KEY"] _) as [[[|]|e] w2]; simpl;
      (split; [split; [done | by intros [? ?]]|]);
      (split; [by intros [? ?]|]); split; try done; by intros [_ ?].
Qed.

(** ** The further properties at work on the sample environments *)

Section FurtherRuns.
Import ElevenLabsService.

Local Abbreviation construct E vn vid :=
  (__init__ E vn vid "eleven_multilingual_v2" None "mp3_44100_128"
     "base" ∅ w0).

(** An empty key passes the credential check. *)
Example empty_key_passes_check :
  (create_dotenv_elevenlabs {[ "ELEVEN_API_KEY" := "" ]} dotenv_declined
     w0).1 = Returned.
Proof. reflexivity. Qed.

(** Without the key the check raises when no [.env] file is made, and
    leaves the process when one is. *)
Example missing_key_stops_load :
  (create_dotenv_elevenlabs ∅ dotenv_declined w0).1
  = Raised missing_key_error /\
  (create_dotenv_elevenlabs {[ "PATH" := "/usr/bin" ]} dotenv_created w0).1
  = Exited.
Proof. split; reflexivity. Qed.

Lemma default_voice_resolution_witness :
  resolves_to env_ok None (Some "") "eleven_multilingual_v2" None
    "mp3_44100_128" "base" ∅ w0 (Some "v-rachel")
    [warn_no_voice_given; EvGetAll;
     EvLog Info "Using default voice: Rachel"].
Proof.
  apply (default_voice_resolution env_ok "eleven_multilingual_v2" None
           "mp3_44100_128" "base" ∅ None (Some "") w0
           (Voice.mk "Rachel" "v-rachel")
           [Voice.mk "Adam" "v-adam"; Voice.mk "" "v-blank"]);
    reflexivity.
Defined.

Lemma resolved_voice_is_listed_witness :
  exists vs v,
    voices_get_all env_ok = Ok vs /\ v ∈ vs /\ Voice.voice_id v = "v-adam".
Proof.
  apply (resolved_voice_is_listed env_ok "eleven_multilingual_v2" None
           "mp3_44100_128" "base" ∅ (Some "Adam") None w0
           (mk "eleven_multilingual_v2" None "mp3_44100_128"
              (Some "v-adam") "media/voiceovers")
           {| trace := [EvGetAll]; files := ∅ |} "v-adam");
    reflexivity.
Defined.

Lemma no_voice_iff_fetch_fruitless_witness :
  self_voice_id (mk "eleven_multilingual_v2" None "mp3_44100_128" None
                   "media/voiceovers") = None <->
  truthy None = false /\
  ((exists e, voices_get_all env_down = Raise e) \/
   voices_get_all env_down = Ok []).
Proof.
  apply (no_voice_iff_fetch_fruitless env_down "eleven_multilingual_v2" None
           "mp3_44100_128" "base" ∅ None None w0
           (mk "eleven_multilingual_v2" None "mp3_44100_128" None
              "media/voiceovers")
           {| trace := [warn_no_voice_given; EvGetAll;
                        error_get_voices timeout_error];
              files := ∅ |}).
  reflexivity.
Defined.

Lemma remote_failure_writes_nothing_witness :
  exists w',
    generate_from_text env_broken_stream sample_service sample_text None
      None w1
    = (Raise (with_context synthesis_failure timeout_error), w') /\
    files w' = files w1 /\
    trace w'
    = trace w1 ++ [EvConvert (request_of env_broken_stream sample_service
                                sample_text);
                   error_api timeout_error].
Proof.
  apply (remote_failure_writes_nothing env_broken_stream sample_service
           sample_text None None w1 timeout_error).
  - reflexivity.
  - right. eexists. split; reflexivity.
Defined.

Lemma other_files_untouched_witness :
  files (generate_from_text env_ok sample_service sample_text None None
           w1).2 !! "media/voiceovers/cache.json"
  = files w1 !! "media/voiceovers/cache.json".
Proof.
  apply (other_files_untouched env_ok sample_service sample_text None None
           w1 "media/voiceovers/cache.json").
  discriminate.
Defined.

Lemma silent_stream_writes_empty_file_witness :
  exists res w',
    generate_from_text env_silent sample_service sample_text None None w1
    = (Ok res, w') /\
    original_audio res = "speech-Hello  world.mp3" /\
    files w' !! "media/voiceovers/speech-Hello  world.mp3" = Some [].
Proof.
  apply (silent_stream_writes_empty_file env_silent sample_service
           sample_text None None w1
           {| gen_chunks := [[]; []]; gen_error := None |});
    try reflexivity.
  repeat constructor.
Defined.

Lemma later_synthesis_replaces_audio_witness :
  exists res w1 res' w2,
    generate_from_text env_by_format sample_service sample_text None None w0
    = (Ok res, w1) /\
    generate_from_text env_by_format sample_service' sample_text None None
      w1
    = (Ok res', w2) /\
    original_audio res' = original_audio res /\
    files w1 !! ("media/voiceovers" +:+ "/" +:+ original_audio res)
    = Some [x49; x44; x33] /\
    files w2 !! ("media/voiceovers" +:+ "/" +:+ original_audio res)
    = Some [x00; x01; x02].
Proof.
  apply (later_synthesis_replaces_audio env_by_format sample_service
           sample_text sample_service' None w0
           {| gen_chunks := [[x49; x44]; [x33]]; gen_error := None |}
           {| gen_chunks := [[x00; x01]; [x02]]; gen_error := None |});
    reflexivity.
Defined.

Lemma constructed_service_request_witness :
  build_input_data env_ok
    (mk "eleven_multilingual_v2" None "mp3_44100_128" (Some "V1")
       "media/voiceovers") sample_text
  = {| fp_input_text := "Hello  world";
       fp_service := "elevenlabs";
       fp_config := {| cfg_model := "eleven_multilingual_v2";
                       cfg_voice_id := Some "V1" |} |} /\
  exists rest,
    trace (generate_from_text env_ok
             (mk "eleven_multilingual_v2" None "mp3_44100_128" (Some "V1")
                "media/voiceovers") sample_text None None w0).2
    = trace w0 ++
      EvConvert {| arg_text := "Hello  world";
                   arg_voice_id := Some "V1";
                   arg_model_id := "eleven_multilingual_v2";
                   arg_output_format := "mp3_44100_128";
                   arg_voice_settings := None |} :: rest.
Proof.
  apply (constructed_service_request env_ok "eleven_multilingual_v2" None
           "mp3_44100_128" "base" ∅ (Some "Rachel") "V1" w0
           (mk "eleven_multilingual_v2" None "mp3_44100_128" (Some "V1")
              "media/voiceovers")
           w0 sample_text None None);
    [discriminate | reflexivity | reflexivity].
Defined.

Lemma unset_voice_is_sent_unchecked_witness :
  exists rest,
    trace (generate_from_text env_no_voices
             (mk "eleven_multilingual_v2" None "mp3_44100_128" None
                "media/voiceovers") sample_text None None
             {| trace := [warn_no_voice_given; EvGetAll;
                          error_get_voices IndexError];
                files := ∅ |}).2
    = [warn_no_voice_given; EvGetAll; error_get_voices IndexError] ++
      EvConvert {| arg_text := "Hello  world";
                   arg_voice_id := None;
                   arg_model_id := "eleven_multilingual_v2";
                   arg_output_format := "mp3_44100_128";
                   arg_voice_settings := None |} :: rest.
Proof.
  apply (unset_voice_is_sent_unchecked env_no_voices
           "eleven_multilingual_v2" None "mp3_44100_128" "base" ∅
           None None w0
           (mk "eleven_multilingual_v2" None "mp3_44100_128" None
              "media/voiceovers")
           {| trace := [warn_no_voice_given; EvGetAll;
                        error_get_voices IndexError];
              files := ∅ |}
           sample_text None None);
    [reflexivity | by right | reflexivity | reflexivity].
Defined.

End FurtherRuns.
